(** * Inspektor Gadget: the tcptop trace gadget and the uid/gid resolver

    A shallow embedding of
      - pkg/gadget-collection/gadgets/top/tcp/gadget.go   (Module [tcptop])
      - pkg/operators/uidgidresolver/uidgidresolver.go    (Module [uidgidresolver])
    together with the few functions of the Go standard library that the two
    files call (Module [Go]).

    Go values are modelled as follows.
      - [int] is a 64-bit signed integer, [int32] a 32-bit one; both are [Z]
        with the wrap-around written out where the code converts.
      - [map[string]string] is [gmap string string]; a nil map is [None].
      - a pointer that may be nil is an [option].
      - an [error] is its message; [(T, error)] results are [result T].
      - calls that leave the two files (the gadget helpers, the tracer, the
        logger) are recorded, in order, in a log of [Effect]s.
      - a run-time panic is an outcome of its own, never a returned value. *)

From Stdlib Require Import ZArith Ascii String List Lia.
From stdpp Require Import base option gmap strings list.

Local Open Scope Z_scope.

(** ** Results of fallible calls *)

Inductive result (A : Type) : Type :=
| Ok (a : A)
| Err (msg : string).
Arguments Ok {A} a.
Arguments Err {A} msg.

Definition is_Err {A} (r : result A) : bool :=
  match r with Ok _ => false | Err _ => true end.

(** ** The Go standard library, as far as the sources use it *)

Module Go.

(** Two's complement wrap-around to [bits] bits. *)
Definition wrap (bits : Z) (n : Z) : Z :=
  let m := 2 ^ bits in
  let r := n mod m in
  if r <? 2 ^ (bits - 1) then r else r - m.

Definition in_range (bits : Z) (n : Z) : bool :=
  (- 2 ^ (bits - 1) <=? n) && (n <? 2 ^ (bits - 1)).

Definition int32_of (n : Z) : Z := wrap 32 n.

(** [time.Second * time.Duration(n)]: a product of two int64. *)
Definition time_Second : Z := 1000000000.
Definition seconds (n : Z) : Z := wrap 64 (time_Second * n).

Definition digit_val (c : ascii) : option Z :=
  let n := Z.of_nat (nat_of_ascii c) in
  if (48 <=? n) && (n <=? 57) then Some (n - 48) else None.

(** The digits of a base-10 literal, most significant first. *)
Fixpoint parse_digits (s : string) (acc : Z) : option Z :=
  match s with
  | EmptyString => Some acc
  | String c r =>
      match digit_val c with
      | Some d => parse_digits r (10 * acc + d)
      | None => None
      end
  end.

Definition parse_unsigned (s : string) : option Z :=
  match s with
  | EmptyString => None
  | _ => parse_digits s 0
  end.

(** An optional sign followed by at least one digit. *)
Definition parse_signed (s : string) : option Z :=
  match s with
  | EmptyString => None
  | String c r =>
      if Ascii.eqb c "+"%char then parse_unsigned r
      else if Ascii.eqb c "-"%char then Z.opp <$> parse_unsigned r
      else parse_unsigned s
  end.

(** [strconv.ParseInt(s, 10, bits)]: a syntax error or a value out of the
    range of a [bits]-bit integer is an error. *)
Definition ParseInt10 (bits : Z) (s : string) : option Z :=
  match parse_signed s with
  | Some n => if in_range bits n then Some n else None
  | None => None
  end.

(** [strconv.Atoi(s)], with [int] of 64 bits. *)
Definition Atoi (s : string) : option Z := ParseInt10 64 s.

(** [strings.Split(s, sep)] for a separator of one character. *)
Fixpoint Split (sep : ascii) (s : string) : list string :=
  match s with
  | EmptyString => [EmptyString]
  | String c r =>
      if Ascii.eqb c sep then EmptyString :: Split sep r
      else match Split sep r with
           | h :: t => String c h :: t
           | [] => [String c EmptyString]
           end
  end.

(** [strings.Join(elems, sep)]. *)
Fixpoint Join (elems : list string) (sep : string) : string :=
  match elems with
  | [] => EmptyString
  | [x] => x
  | x :: rest => x +:+ sep +:+ Join rest sep
  end.

End Go.

(** ** The Trace resource of the gadget API (package gadgetv1alpha1)

  Only the fields that the tcptop gadget reads or writes. *)

Module gadgetv1alpha1.

(** [TraceState] is a string type; [TraceStateUnset] is its zero value. *)
Inductive TraceState : Type :=
| TraceStateUnset
| TraceStateStarted
| TraceStateStopped
| TraceStateCompleted.

Record ObjectMeta : Type := {
  Namespace : string;
  Name : string
}.

Record TraceSpec : Type := {
  Gadget : string;
  Parameters : option (gmap string string)
}.

Record TraceStatus : Type := {
  State : TraceState;
  OperationError : string
}.

Record Trace : Type := {
  Meta : ObjectMeta;
  Spec : TraceSpec;
  Status : TraceStatus
}.

(** [trace.Status.State = s] *)
Definition set_State (s : TraceState) (trace : Trace) : Trace :=
  {| Meta := Meta trace;
     Spec := Spec trace;
     Status := {| State := s; OperationError := OperationError (Status trace) |} |}.

(** [trace.Status.OperationError = msg] *)
Definition set_OperationError (msg : string) (trace : Trace) : Trace :=
  {| Meta := Meta trace;
     Spec := Spec trace;
     Status := {| State := State (Status trace); OperationError := msg |} |}.

End gadgetv1alpha1.

(** ** pkg/gadget-collection/gadgets/top/tcp/gadget.go *)

Module tcptop.

Import gadgetv1alpha1.

(** [*tcptoptracer.Tracer] and the mount namespace map are handles owned by
    other packages; a handle is the address it points to. *)
Definition Tracer : Type := positive.
Definition MountNsMap : Type := positive.

(** [tcptoptracer.Config] *)
Record Config : Type := {
  MaxRows : Z;
  Interval : Z;
  SortBy : list string;
  MountnsMap : MountNsMap;
  TargetPid : Z;
  TargetFamily : Z
}.

(** [type Trace struct]; the [helpers] field is part of [Imports] below. *)
Record Trace : Type := {
  started : bool;
  tracer : option Tracer
}.

(** What [gadget.go] imports from the packages [top], [types], [sort],
    [gadgets], [tcptoptracer], [fmt] and [encoding/json], and the gadget
    helpers it was constructed with. None of them is defined in the file, so
    every statement below holds for all of them. [TopEvent] is the type
    [top.Event[types.Stats]] handed to the event callback.

    [sortable tok] tells whether [sort.FilterSortableColumns] finds the column
    of the token [tok] in [types.GetColumns().ColumnMap]; [quote] is the verb
    [%q] of [fmt.Sprintf]. *)
Record Imports (TopEvent : Type) : Type := {
  MaxRowsParam : string;
  MaxRowsDefault : Z;
  IntervalParam : string;
  IntervalDefault : Z;
  SortByParam : string;
  SortByDefault : list string;
  PidParam : string;
  FamilyParam : string;
  ParseFilterByFamily : string -> result Z;
  sortable : string -> bool;
  TraceName : string -> string -> string;
  quote : string -> string;
  Marshal : TopEvent -> result string;
  TracerMountNsMap : string -> result MountNsMap;
  NewTracer : Config -> result Tracer
}.
Arguments MaxRowsParam {TopEvent} _.
Arguments MaxRowsDefault {TopEvent} _.
Arguments IntervalParam {TopEvent} _.
Arguments IntervalDefault {TopEvent} _.
Arguments SortByParam {TopEvent} _.
Arguments SortByDefault {TopEvent} _.
Arguments PidParam {TopEvent} _.
Arguments FamilyParam {TopEvent} _.
Arguments ParseFilterByFamily {TopEvent} _ _.
Arguments sortable {TopEvent} _ _.
Arguments TraceName {TopEvent} _ _ _.
Arguments quote {TopEvent} _ _.
Arguments Marshal {TopEvent} _ _.
Arguments TracerMountNsMap {TopEvent} _ _.
Arguments NewTracer {TopEvent} _ _.

(** The calls that leave the file, in the order they are made. The tracer
    created by [NewTracer] holds the event callback and runs it on every
    tick. *)
Inductive Effect : Type :=
| Call_TracerMountNsMap (traceName : string)
| Call_NewTracer (config : Config)
| Call_Tracer_Stop (receiver : option Tracer)
| Call_PublishEvent (traceName : string) (payload : string)
| Call_Warnf (msg : string).

(** The state a call of [Start] or [Stop] reads and writes: the receiver
    [t], the API object [trace], and the log of outside calls. *)
Record World : Type := {
  t : Trace;
  trace : gadgetv1alpha1.Trace;
  effects : list Effect
}.

(** What the parameter block of [Start] computes. *)
Record Settings : Type := {
  maxRows : Z;
  intervalSeconds : Z;
  sortBy : list string;
  targetPid : Z;
  targetFamily : Z
}.

(** [x <- e; k]: go on with the value of [e], or return its error. *)
Definition bind_result {A B} (e : result A) (k : A -> result B) : result B :=
  match e with
  | Ok a => k a
  | Err msg => Err msg
  end.

Declare Scope result_scope.
Delimit Scope result_scope with result.
Notation "'attempt' x <- e 'in' k" := (bind_result e (fun x => k))
  (at level 10, x name, e at level 100, k at level 200) : result_scope.

(** [fmt.Sprintf("%q is not valid for %q", val, param)] *)
Definition not_valid_for {E} (I : Imports E) (val param : string) : string :=
  quote I val +:+ " is not valid for " +:+ quote I param.

(** [fmt.Sprintf("%q are not valid for %q", val, param)] *)
Definition are_not_valid_for {E} (I : Imports E) (val param : string) : string :=
  quote I val +:+ " are not valid for " +:+ quote I param.

(** Modelled from the spec: [sort.FilterSortableColumns] (package
    pkg/columns/sort) is called by [Start] and not defined in the file. The
    sort specification is a list of column tokens "restricted to a known
    column set"; the function returns the tokens of that set and the others,
    each in the order given. *)
Definition FilterSortableColumns {E} (I : Imports E) (sortByColumns : list string)
  : list string * list string :=
  (List.filter (sortable I) sortByColumns,
   List.filter (fun tok => negb (sortable I tok)) sortByColumns).

(** Lines 123-129. *)
Definition param_MaxRows {E} (I : Imports E) (params : gmap string string) : result Z :=
  match params !! MaxRowsParam I with
  | Some val =>
      match Go.Atoi val with
      | Some n => Ok n
      | None => Err (not_valid_for I val (MaxRowsParam I))
      end
  | None => Ok (MaxRowsDefault I)
  end.

(** Lines 131-137. *)
Definition param_Interval {E} (I : Imports E) (params : gmap string string) : result Z :=
  match params !! IntervalParam I with
  | Some val =>
      match Go.Atoi val with
      | Some n => Ok n
      | None => Err (not_valid_for I val (IntervalParam I))
      end
  | None => Ok (IntervalDefault I)
  end.

(** Lines 139-149. *)
Definition param_SortBy {E} (I : Imports E) (params : gmap string string)
  : result (list string) :=
  match params !! SortByParam I with
  | Some val =>
      let sortByColumns := Go.Split "," val in
      let invalidCols := snd (FilterSortableColumns I sortByColumns) in
      if (0 <? Z.of_nat (length invalidCols))
      then Err (are_not_valid_for I (Go.Join invalidCols ",") (SortByParam I))
      else Ok sortByColumns
  | None => Ok (SortByDefault I)
  end.

(** Lines 151-159. *)
Definition param_Pid {E} (I : Imports E) (params : gmap string string) : result Z :=
  match params !! PidParam I with
  | Some val =>
      match Go.ParseInt10 32 val with
      | Some pid => Ok (Go.int32_of pid)
      | None => Err (not_valid_for I val (PidParam I))
      end
  | None => Ok 0
  end.

(** Lines 161-167. *)
Definition param_Family {E} (I : Imports E) (params : gmap string string) : result Z :=
  match params !! FamilyParam I with
  | Some val =>
      match ParseFilterByFamily I val with
      | Ok family => Ok family
      | Err _ => Err (not_valid_for I val (FamilyParam I))
      end
  | None => Ok (-1)
  end.

(** Lines 113-168: the defaults, overridden by the parameters that are
    present; the first parameter that is not valid ends [Start] with its
    message. *)
Definition parameters {E} (I : Imports E) (ps : option (gmap string string))
  : result Settings :=
  match ps with
  | None =>
      Ok {| maxRows := MaxRowsDefault I;
            intervalSeconds := IntervalDefault I;
            sortBy := SortByDefault I;
            targetPid := 0;
            targetFamily := -1 |}
  | Some params =>
      (attempt maxRows <- param_MaxRows I params in
       attempt intervalSeconds <- param_Interval I params in
       attempt sortBy <- param_SortBy I params in
       attempt targetPid <- param_Pid I params in
       attempt targetFamily <- param_Family I params in
       Ok {| maxRows := maxRows;
             intervalSeconds := intervalSeconds;
             sortBy := sortBy;
             targetPid := targetPid;
             targetFamily := targetFamily |})%result
  end.

(** Lines 184-191: the callback the tracer runs with the event of a tick.
    [gadget] is [trace.Spec.Gadget]. *)
Definition eventCallback {E} (I : Imports E) (gadget traceName : string)
  (ev : E) (effects : list Effect) : list Effect :=
  match Marshal I ev with
  | Err err =>
      effects ++ [Call_Warnf ("Gadget " +:+ gadget +:+ ": Failed to marshall event: " +:+ err)]
  | Ok r =>
      effects ++ [Call_PublishEvent traceName r]
  end.

(** [func (t *Trace) Start(trace *gadgetv1alpha1.Trace)], lines 105-203. *)
Definition Start {E} (I : Imports E) (w : World) : World :=
  if started (t w) then
    {| t := t w; trace := set_State TraceStateStarted (trace w); effects := effects w |}
  else
    let traceName :=
      TraceName I (Namespace (Meta (trace w))) (Name (Meta (trace w))) in
    match parameters I (Parameters (Spec (trace w))) with
    | Err msg =>
        {| t := t w; trace := set_OperationError msg (trace w); effects := effects w |}
    | Ok s =>
        let effects1 := effects w ++ [Call_TracerMountNsMap traceName] in
        match TracerMountNsMap I traceName with
        | Err err =>
            {| t := t w;
               trace := set_OperationError
                          ("failed to find tracer's mount ns map: " +:+ err) (trace w);
               effects := effects1 |}
        | Ok mountNsMap =>
            let config :=
              {| MaxRows := maxRows s;
                 Interval := Go.seconds (intervalSeconds s);
                 SortBy := sortBy s;
                 MountnsMap := mountNsMap;
                 TargetPid := targetPid s;
                 TargetFamily := targetFamily s |} in
            let effects2 := effects1 ++ [Call_NewTracer config] in
            match NewTracer I config with
            | Err err =>
                {| t := t w;
                   trace := set_OperationError
                              ("failed to create tracer: " +:+ err) (trace w);
                   effects := effects2 |}
            | Ok tracer =>
                {| t := {| started := true; tracer := Some tracer |};
                   trace := set_State TraceStateStarted (trace w);
                   effects := effects2 |}
            end
        end
    end.

(** [func (t *Trace) Stop(trace *gadgetv1alpha1.Trace)], lines 205-216. *)
Definition Stop (w : World) : World :=
  if negb (started (t w)) then
    {| t := t w; trace := set_OperationError "Not started" (trace w); effects := effects w |}
  else
    {| t := {| started := false; tracer := None |};
       trace := set_State TraceStateStopped (trace w);
       effects := effects w ++ [Call_Tracer_Stop (tracer (t w))] |}.

(** The tracers created, and the events published, in a log. *)
Definition tracers_created (l : list Effect) : list Config :=
  omap (fun e => match e with Call_NewTracer c => Some c | _ => None end) l.

Definition published (l : list Effect) : list (string * string) :=
  omap (fun e => match e with Call_PublishEvent n p => Some (n, p) | _ => None end) l.

(** The ticks of a run: the tracer hands the events to the callback one
    after the other. *)
Definition ticks {E} (I : Imports E) (gadget traceName : string)
  (evs : list E) (effects : list Effect) : list Effect :=
  fold_left (fun l ev => eventCallback I gadget traceName ev l) evs effects.



(** [Start] returned at one of its validation errors: nothing but
    [trace.Status.OperationError] has changed. *)
Definition rejected_with (msg : string) (w w' : World) : Prop :=
  w' = {| t := t w; trace := set_OperationError msg (trace w); effects := effects w |}.

(** Lines 175-182: the configuration [Start] hands to [NewTracer]. *)
Definition config_of (s : Settings) (mountNsMap : MountNsMap) : Config :=
  {| MaxRows := maxRows s;
     Interval := Go.seconds (intervalSeconds s);
     SortBy := sortBy s;
     MountnsMap := mountNsMap;
     TargetPid := targetPid s;
     TargetFamily := targetFamily s |}.

(** Line 111: the name under which [Start] asks for the mount namespace map
    and the callback publishes. *)
Definition traceName_of {E} (I : Imports E) (trace : gadgetv1alpha1.Trace) : string :=
  TraceName I (Namespace (Meta trace)) (Name (Meta trace)).

(** Lines 113-117: the settings when no parameter is given. *)
Definition defaults {E} (I : Imports E) : Settings :=
  {| maxRows := MaxRowsDefault I;
     intervalSeconds := IntervalDefault I;
     sortBy := SortByDefault I;
     targetPid := 0;
     targetFamily := -1 |}.






(** The receivers of the [Stop] calls in a log, and the tracers that the
    [NewTracer] calls in a log returned. *)
Definition stops (l : list Effect) : list (option Tracer) :=
  omap (fun e => match e with Call_Tracer_Stop r => Some r | _ => None end) l.

Definition made {E} (I : Imports E) (l : list Effect) : list Tracer :=
  omap (fun c => match NewTracer I c with Ok tr => Some tr | Err _ => None end)
       (tracers_created l).

Definition warnings (l : list Effect) : list string :=
  omap (fun e => match e with Call_Warnf msg => Some msg | _ => None end) l.


End tcptop.

(** ** pkg/operators/uidgidresolver/uidgidresolver.go *)

Module uidgidresolver.

(** Events are handed around by reference: an event is an object in the
    heap, and what the operator receives is its address. *)
Definition loc : Type := positive.

(** [type UidResolverInterface interface]; the methods act on the object
    their receiver points to. [GetUid] yields a [uint32]. *)
Record UidResolverInterface (Obj : Type) : Type := {
  GetUid : Obj -> Z;
  SetUserName : string -> Obj -> Obj
}.
Arguments GetUid {Obj} _ _.
Arguments SetUserName {Obj} _ _ _.

(** [type GidResolverInterface interface] *)
Record GidResolverInterface (Obj : Type) : Type := {
  GetGid : Obj -> Z;
  SetGroupName : string -> Obj -> Obj
}.
Arguments GetGid {Obj} _ _.
Arguments SetGroupName {Obj} _ _ _.

(** The dynamic type of a value: which of the two interfaces its method
    set implements, and with which methods. *)
Record DynType (Obj : Type) : Type := {
  asUidResolver : option (UidResolverInterface Obj);
  asGidResolver : option (GidResolverInterface Obj)
}.
Arguments asUidResolver {Obj} _.
Arguments asGidResolver {Obj} _.

(** A value of an interface type: nil ([None]), or a method table with the
    address of the receiver. [any] is the empty interface. *)
Definition iface (T : Type) : Type := option (T * loc).
Definition any (Obj : Type) : Type := iface (DynType Obj).

(** [gadgets.GadgetDesc], as far as [CanOperateOn] uses it. *)
Record GadgetDesc (Obj : Type) : Type := {
  EventPrototype : any Obj
}.
Arguments EventPrototype {Obj} _.

(** Modelled from the spec: the interface [UserGroupCache] and its
    constructor [GetUserGroupCache] are not defined in the file. [Start] may
    fail and changes the cache; [Stop] never fails; the two lookups read the
    cache and nothing else ("never fails, never blocks beyond an in-memory
    lookup"). [C] is the state of the shared cache. *)
Record UserGroupCache (C : Type) : Type := {
  Start : C -> option string * C;
  Stop : C -> C;
  GetUsername : C -> Z -> string;
  GetGroupname : C -> Z -> string
}.
Arguments Start {C} _ _.
Arguments Stop {C} _ _.
Arguments GetUsername {C} _ _ _.
Arguments GetGroupname {C} _ _ _.

(** [type UidGidResolverInstance struct]; [gadgetCtx] and [gadgetInstance]
    are stored and never read. *)
Record UidGidResolverInstance (C : Type) : Type := {
  uidGidCache : UserGroupCache C
}.
Arguments uidGidCache {C} _.

(** What a method of the instance can read and write: the shared cache and
    the heap of events. *)
Record World (Obj C : Type) : Type := {
  cache : C;
  heap : gmap loc Obj
}.
Arguments cache {Obj C} _.
Arguments heap {Obj C} _.
Arguments Build_World {Obj C} _ _.

(** A call returns a value, or panics; either way it leaves a state. *)
Inductive outcome (S A : Type) : Type :=
| Returned (a : A) (s : S)
| Panicked (s : S).
Arguments Returned {S A} a s.
Arguments Panicked {S A} s.

Definition M (S A : Type) : Type := S -> outcome S A.

Definition ret {S A} (a : A) : M S A := fun s => Returned a s.

Definition panic {S A} : M S A := fun s => Panicked s.

Definition bind {S A B} (m : M S A) (k : A -> M S B) : M S B :=
  fun s =>
    match m s with
    | Returned a s' => k a s'
    | Panicked s' => Panicked s'
    end.

Declare Scope go_scope.
Delimit Scope go_scope with go.
Notation "'do' x <- e 'in' k" := (bind e (fun x => k))
  (at level 10, x name, e at level 100, k at level 200) : go_scope.
Notation "e ';;' k" := (bind e (fun _ => k))
  (at level 100, k at level 200, right associativity) : go_scope.

(** [x, ok := v.(T)]: the method table of [T] when the dynamic type of [v]
    implements it; nil and [false] otherwise, also for a nil [v]. *)
Definition comma_ok {Obj T} (sel : DynType Obj -> option T) (v : any Obj)
  : iface T * bool :=
  match v with
  | Some (ty, p) =>
      match sel ty with
      | Some methods => (Some (methods, p), true)
      | None => (None, false)
      end
  | None => (None, false)
  end.

(** [x := v.(T)]: the same, with a run-time panic in place of [false]. *)
Definition type_assert {Obj C T} (sel : DynType Obj -> option T) (v : any Obj)
  : M (World Obj C) (iface T) :=
  match comma_ok sel v with
  | (x, true) => ret x
  | (_, false) => panic
  end.

(** A method reading the object at [p]. *)
Definition call_getter {Obj C A} (p : loc) (f : Obj -> A) : M (World Obj C) A :=
  fun w =>
    match heap w !! p with
    | Some o => Returned (f o) w
    | None => Panicked w
    end.

(** A method writing the object at [p]. *)
Definition call_setter {Obj C} (p : loc) (f : Obj -> Obj) : M (World Obj C) unit :=
  fun w =>
    match heap w !! p with
    | Some o => Returned tt {| cache := cache w; heap := <[p := f o]> (heap w) |}
    | None => Panicked w
    end.

Definition read_cache {Obj C A} (f : C -> A) : M (World Obj C) A :=
  fun w => Returned (f (cache w)) w.

(** [func (k *UidGidResolver) CanOperateOn(gadget gadgets.GadgetDesc) bool] *)
Definition CanOperateOn {Obj} (gadget : GadgetDesc Obj) : bool :=
  let hasUidResolverInterface := snd (comma_ok asUidResolver (EventPrototype gadget)) in
  let hasGidResolverInterface := snd (comma_ok asGidResolver (EventPrototype gadget)) in
  hasUidResolverInterface || hasGidResolverInterface.

(** [func (m *UidGidResolverInstance) PreGadgetRun() error] *)
Definition PreGadgetRun {Obj C} (m : UidGidResolverInstance C)
  : M (World Obj C) (option string) :=
  fun w =>
    let (err, c) := Start (uidGidCache m) (cache w) in
    Returned err {| cache := c; heap := heap w |}.

(** [func (m *UidGidResolverInstance) PostGadgetRun() error] *)
Definition PostGadgetRun {Obj C} (m : UidGidResolverInstance C)
  : M (World Obj C) (option string) :=
  fun w =>
    Returned None {| cache := Stop (uidGidCache m) (cache w); heap := heap w |}.

(** [func (m *UidGidResolverInstance) enrich(ev any)], lines 106-118. *)
Definition enrich {Obj C} (m : UidGidResolverInstance C) (ev : any Obj)
  : M (World Obj C) unit :=
  (do uidResolver <- type_assert asUidResolver ev in
   match uidResolver with
   | Some (methods, p) =>
       do uid <- call_getter p (GetUid methods) in
       do name <- read_cache (fun c => GetUsername (uidGidCache m) c uid) in
       call_setter p (SetUserName methods name)
   | None => ret tt
   end;;
   do gidResolver <- type_assert asGidResolver ev in
   match gidResolver with
   | Some (methods, p) =>
       do gid <- call_getter p (GetGid methods) in
       do name <- read_cache (fun c => GetGroupname (uidGidCache m) c gid) in
       call_setter p (SetGroupName methods name)
   | None => ret tt
   end)%go.

(** [func (m *UidGidResolverInstance) EnrichEvent(ev any) error] *)
Definition EnrichEvent {Obj C} (m : UidGidResolverInstance C) (ev : any Obj)
  : M (World Obj C) (option string) :=
  (enrich m ev;; ret None)%go.

(** An outcome that is a return, and one that is a panic. *)
Definition returns {S A} (o : outcome S A) : bool :=
  match o with Returned _ _ => true | Panicked _ => false end.

Definition panics {S A} (o : outcome S A) : bool := negb (returns o).

Definition state_after {S A} (o : outcome S A) : S :=
  match o with Returned _ s => s | Panicked s => s end.

(** The capabilities of an event value. *)
Definition implements_uid {Obj} (ev : any Obj) : Prop :=
  exists methods p, ev = Some (methods, p) /\ is_Some (asUidResolver methods).

Definition implements_gid {Obj} (ev : any Obj) : Prop :=
  exists methods p, ev = Some (methods, p) /\ is_Some (asGidResolver methods).

End uidgidresolver.

(** ** Concrete hosts and events, for running the two files *)

Module samples.

Import gadgetv1alpha1.

Definition dquote : string := String (ascii_of_nat 34) EmptyString.

(** A host on which every helper call succeeds. The names of the parameters
    are those of the host interface; the event of a tick is its wire form, if
    it has one. *)
Definition host : tcptop.Imports (option string) :=
  {| tcptop.MaxRowsParam := "max-rows";
     tcptop.MaxRowsDefault := 20;
     tcptop.IntervalParam := "interval-seconds";
     tcptop.IntervalDefault := 1;
     tcptop.SortByParam := "sort-by";
     tcptop.SortByDefault := ["-sent"; "-received"]%string;
     tcptop.PidParam := "target-pid";
     tcptop.FamilyParam := "target-family";
     tcptop.ParseFilterByFamily :=
       (fun val => if String.eqb val "4" then Ok 2
                   else if String.eqb val "6" then Ok 10
                   else Err "IP version is either 4 or 6");
     tcptop.sortable :=
       (fun tok => existsb (String.eqb tok)
                     ["sent"; "-sent"; "received"; "-received"; "pid"; "-pid"]%string);
     tcptop.TraceName := (fun ns name => ns +:+ "/" +:+ name);
     tcptop.quote := (fun s => dquote +:+ s +:+ dquote);
     tcptop.Marshal :=
       (fun ev => match ev with
                  | Some r => Ok r
                  | None => Err "json: unsupported value"
                  end);
     tcptop.TracerMountNsMap := (fun _ => Ok 1%positive);
     tcptop.NewTracer := (fun _ => Ok 2%positive) |}.

(** A trace object as the API server hands it over, with its parameters. *)
Definition request (params : option (gmap string string)) : gadgetv1alpha1.Trace :=
  {| Meta := {| Namespace := "gadget"; Name := "tcptop-1" |};
     Spec := {| Gadget := "tcptop"; Parameters := params |};
     Status := {| State := TraceStateUnset; OperationError := EmptyString |} |}.

(** The world of a trace that [LookupOrCreate] has just created. *)
Definition fresh (params : option (gmap string string)) : tcptop.World :=
  {| tcptop.t := {| tcptop.started := false; tcptop.tracer := None |};
     tcptop.trace := request params;
     tcptop.effects := [] |}.



Definition bogus_column : gmap string string :=
  {[ "sort-by"%string := "-sent,bogus"%string ]}.


Definition running : tcptop.World :=
  {| tcptop.t := {| tcptop.started := true; tcptop.tracer := Some 2%positive |};
     tcptop.trace := request (Some bogus_column);
     tcptop.effects := [] |}.

(** An event type with all four methods, and three that lack some. *)
Record Event : Type := {
  uid : Z;
  gid : Z;
  username : string;
  groupname : string
}.

Definition uid_methods : uidgidresolver.UidResolverInterface Event :=
  {| uidgidresolver.GetUid := uid;
     uidgidresolver.SetUserName :=
       (fun name e => {| uid := uid e; gid := gid e;
                         username := name; groupname := groupname e |}) |}.

Definition gid_methods : uidgidresolver.GidResolverInterface Event :=
  {| uidgidresolver.GetGid := gid;
     uidgidresolver.SetGroupName :=
       (fun name e => {| uid := uid e; gid := gid e;
                         username := username e; groupname := name |}) |}.

Definition with_both : uidgidresolver.DynType Event :=
  {| uidgidresolver.asUidResolver := Some uid_methods;
     uidgidresolver.asGidResolver := Some gid_methods |}.

Definition uid_only : uidgidresolver.DynType Event :=
  {| uidgidresolver.asUidResolver := Some uid_methods;
     uidgidresolver.asGidResolver := None |}.

Definition gid_only : uidgidresolver.DynType Event :=
  {| uidgidresolver.asUidResolver := None;
     uidgidresolver.asGidResolver := Some gid_methods |}.

Definition neither : uidgidresolver.DynType Event :=
  {| uidgidresolver.asUidResolver := None;
     uidgidresolver.asGidResolver := None |}.

(** A cache that counts its users and knows one user and one group. *)
Definition passwd_cache : uidgidresolver.UserGroupCache nat :=
  {| uidgidresolver.Start := (fun refcount => (None, S refcount));
     uidgidresolver.Stop := Nat.pred;
     uidgidresolver.GetUsername := (fun _ id => if (id =? 0)%Z then "root"%string else "1000"%string);
     uidgidresolver.GetGroupname := (fun _ id => if (id =? 0)%Z then "wheel"%string else "1000"%string) |}.

Definition instance : uidgidresolver.UidGidResolverInstance nat :=
  {| uidgidresolver.uidGidCache := passwd_cache |}.

(** One event of root, not yet enriched, at address 1. *)
Definition raw : Event :=
  {| uid := 0; gid := 0; username := EmptyString; groupname := EmptyString |}.

Definition world : uidgidresolver.World Event nat :=
  {| uidgidresolver.cache := 1%nat;
     uidgidresolver.heap := {[ 1%positive := raw ]} |}.

Definition event_of (ty : uidgidresolver.DynType Event) : uidgidresolver.any Event :=
  Some (ty, 1%positive).

(** Hosts on which a helper fails. *)
Definition host_with (mount : string -> result tcptop.MountNsMap)
  (new : tcptop.Config -> result tcptop.Tracer) : tcptop.Imports (option string) :=
  {| tcptop.MaxRowsParam := tcptop.MaxRowsParam host;
     tcptop.MaxRowsDefault := tcptop.MaxRowsDefault host;
     tcptop.IntervalParam := tcptop.IntervalParam host;
     tcptop.IntervalDefault := tcptop.IntervalDefault host;
     tcptop.SortByParam := tcptop.SortByParam host;
     tcptop.SortByDefault := tcptop.SortByDefault host;
     tcptop.PidParam := tcptop.PidParam host;
     tcptop.FamilyParam := tcptop.FamilyParam host;
     tcptop.ParseFilterByFamily := tcptop.ParseFilterByFamily host;
     tcptop.sortable := tcptop.sortable host;
     tcptop.TraceName := tcptop.TraceName host;
     tcptop.quote := tcptop.quote host;
     tcptop.Marshal := tcptop.Marshal host;
     tcptop.TracerMountNsMap := mount;
     tcptop.NewTracer := new |}.

Definition host_without_map : tcptop.Imports (option string) :=
  host_with (fun _ => Err "no such trace") (fun _ => Ok 2%positive).

Definition host_without_tracer : tcptop.Imports (option string) :=
  host_with (fun _ => Ok 1%positive) (fun _ => Err "cannot load program").

(** Requests with several parameters. *)
Definition all_set : gmap string string :=
  {[ "max-rows"%string := "5"%string;
     "interval-seconds"%string := "3"%string;
     "sort-by"%string := "-received,pid"%string;
     "target-pid"%string := "42"%string;
     "target-family"%string := "6"%string ]}.

Definition two_refused : gmap string string :=
  {[ "interval-seconds"%string := "soon"%string;
     "target-pid"%string := "4294967296"%string ]}.

Definition all_bogus : gmap string string :=
  {[ "sort-by"%string := "cpu,,mem"%string ]}.

(** A second event, at address 2, next to the one of [world]. *)
Definition other : Event :=
  {| uid := 1000; gid := 1000; username := "alice"; groupname := "staff" |}.

Definition world2 : uidgidresolver.World Event nat :=
  {| uidgidresolver.cache := 1%nat;
     uidgidresolver.heap := {[ 1%positive := raw; 2%positive := other ]} |}.


End samples.

(** * Properties *)

(** ** The standard library functions on small inputs *)

Example Atoi_20 : Go.Atoi "20" = Some 20.
Proof. reflexivity. Qed.

Example Atoi_negative : Go.Atoi "-7" = Some (-7).
Proof. reflexivity. Qed.

Example Atoi_word : Go.Atoi "ten" = None.
Proof. reflexivity. Qed.

Example Atoi_sign_alone : Go.Atoi "-" = None.
Proof. reflexivity. Qed.

Example Atoi_out_of_range : Go.Atoi "9223372036854775808" = None.
Proof. vm_compute. reflexivity. Qed.

Example ParseInt32_out_of_range : Go.ParseInt10 32 "2147483648" = None.
Proof. vm_compute. reflexivity. Qed.

Example Split_two : Go.Split "," "-sent,comm" = ["-sent"; "comm"]%string.
Proof. reflexivity. Qed.

Example Split_nothing : Go.Split "," EmptyString = [EmptyString].
Proof. reflexivity. Qed.

Example Split_trailing : Go.Split "," "pid," = ["pid"%string; EmptyString].
Proof. reflexivity. Qed.

Example Join_two : Go.Join ["a"; "b"]%string "," = "a,b"%string.
Proof. reflexivity. Qed.

(** ** tcptop: the parameter block *)

Section tcptop_parameters.

Import gadgetv1alpha1 tcptop.

Context {E : Type} (I : Imports E).

(** The columns refused by [FilterSortableColumns] are the tokens that are
    not sortable. *)
Lemma invalid_columns_spec (cols : list string) (tok : string) :
  In tok (snd (FilterSortableColumns I cols)) <->
  In tok cols /\ sortable I tok = false.
Proof.
  unfold FilterSortableColumns; simpl.
  rewrite filter_In, negb_true_iff. tauto.
Qed.







(** The check of max-rows lets every integer through, whatever its sign. *)
Lemma param_MaxRows_integer (params : gmap string string) (val : string) (n : Z) :
  params !! MaxRowsParam I = Some val ->
  Go.Atoi val = Some n ->
  param_MaxRows I params = Ok n.
Proof.
  intros Hval Hparse. unfold param_MaxRows. rewrite Hval, Hparse. reflexivity.
Qed.




(** A rejected [Start] leaves the receiver, the state of the trace and the
    log as they were: no tracer was created. *)
Lemma rejected_with_frame (msg : string) (w w' : World) :
  rejected_with msg w w' ->
  t w' = t w /\
  effects w' = effects w /\
  State (Status (trace w')) = State (Status (trace w)) /\
  OperationError (Status (trace w')) = msg.
Proof. intros ->. repeat split. Qed.

End tcptop_parameters.

(** ** tcptop: [Start], [Stop] and the event callback *)

Section tcptop_lifecycle.

Import gadgetv1alpha1 tcptop.

Context {E : Type} (I : Imports E).

(** C10. [Start] on a trace that is already started sets
    [trace.Status.State] to Started and changes nothing else: the receiver
    keeps its flag and its tracer, no helper is called (the parameters are
    not read, no tracer is created), and the rest of the trace object is as
    it was. *)
Theorem Start_already_started (w : World) :
  started (t w) = true ->
  Start I w =
    {| t := t w; trace := set_State TraceStateStarted (trace w); effects := effects w |} /\
  started (t (Start I w)) = true /\
  tracer (t (Start I w)) = tracer (t w) /\
  effects (Start I w) = effects w /\
  State (Status (trace (Start I w))) = TraceStateStarted /\
  OperationError (Status (trace (Start I w))) = OperationError (Status (trace w)) /\
  Spec (trace (Start I w)) = Spec (trace w) /\
  Meta (trace (Start I w)) = Meta (trace w).
Proof.
  intros Hstarted. unfold Start. rewrite Hstarted. simpl.
  repeat split; auto.
Qed.


(** C3 (amended). [Stop] on a trace that is not started keeps the stopped
    state: the receiver, [trace.Status.State] and the log are unchanged (no
    tracer is stopped), and a second [Stop] changes nothing more. It does
    report the error "Not started" in [trace.Status.OperationError]. *)
Theorem Stop_not_started_keeps_state (w : World) :
  started (t w) = false ->
  Stop w =
    {| t := t w; trace := set_OperationError "Not started" (trace w);
       effects := effects w |} /\
  started (t (Stop w)) = false /\
  State (Status (trace (Stop w))) = State (Status (trace w)) /\
  OperationError (Status (trace (Stop w))) = "Not started"%string /\
  Stop (Stop w) = Stop w.
Proof.
  intros Hstopped. unfold Stop. rewrite Hstopped. simpl. rewrite Hstopped. simpl.
  repeat split; auto.
Qed.



Lemma published_app (l1 l2 : list Effect) :
  published (l1 ++ l2) = published l1 ++ published l2.
Proof.
  unfold published. apply omap_app.
Qed.

(** What one tick adds to the published events. *)
Lemma eventCallback_published (gadget traceName : string) (ev : E) (l : list Effect) :
  published (eventCallback I gadget traceName ev l) =
  published l ++ match Marshal I ev with
                 | Ok r => [(traceName, r)]
                 | Err _ => []
                 end.
Proof.
  unfold eventCallback. destruct (Marshal I ev); rewrite published_app; reflexivity.
Qed.

(** Over the ticks of a run, the events that serialize are published, each
    once and in order, whatever happened at the ticks before. *)
Lemma ticks_published (gadget traceName : string) (evs : list E) (l : list Effect) :
  published (ticks I gadget traceName evs l) =
  published l ++
  omap (fun ev => match Marshal I ev with
                  | Ok r => Some (traceName, r)
                  | Err _ => None
                  end) evs.
Proof.
  unfold ticks. revert l. induction evs as [|ev evs IH]; intros l; simpl.
  - rewrite app_nil_r. reflexivity.
  - rewrite IH, eventCallback_published.
    destruct (Marshal I ev); simpl; rewrite <- app_assoc; reflexivity.
Qed.

(** C6. The event callback calls [PublishEvent] once, with the name of the
    trace and the serialized event, when [json.Marshal] succeeds. When it
    fails, the callback logs a warning and returns without calling
    [PublishEvent]; it has no result through which the failure could reach
    the tracer, and a later tick whose event serializes is published all the
    same. *)
Theorem eventCallback_publishes_once
  (gadget traceName : string) (ev : E) (l : list Effect) :
  (forall r, Marshal I ev = Ok r ->
     eventCallback I gadget traceName ev l = l ++ [Call_PublishEvent traceName r] /\
     published (eventCallback I gadget traceName ev l) =
       published l ++ [(traceName, r)]) /\
  (forall err, Marshal I ev = Err err ->
     eventCallback I gadget traceName ev l =
       l ++ [Call_Warnf ("Gadget " +:+ gadget +:+ ": Failed to marshall event: " +:+ err)] /\
     published (eventCallback I gadget traceName ev l) = published l /\
     forall next r, Marshal I next = Ok r ->
       published (ticks I gadget traceName [ev; next] l) =
         published l ++ [(traceName, r)]).
Proof.
  split.
  - intros r Hr. rewrite eventCallback_published. unfold eventCallback.
    rewrite Hr. auto.
  - intros err Herr. rewrite eventCallback_published. unfold eventCallback.
    rewrite Herr, app_nil_r. repeat split.
    intros next r Hr. rewrite ticks_published. simpl.
    rewrite Herr, Hr. reflexivity.
Qed.

End tcptop_lifecycle.

(** ** tcptop on a concrete host *)

Lemma Start_already_started_witness :
  tcptop.Start samples.host samples.running =
    {| tcptop.t := tcptop.t samples.running;
       tcptop.trace :=
         gadgetv1alpha1.set_State gadgetv1alpha1.TraceStateStarted
           (tcptop.trace samples.running);
       tcptop.effects := tcptop.effects samples.running |}.
Proof.
  apply (Start_already_started samples.host samples.running). reflexivity.
Defined.



(** C3, as stated, fails on a trace that was never started: [Stop] reports
    the error "Not started". *)
Lemma Stop_never_started_reports_error :
  tcptop.started (tcptop.t (samples.fresh None)) = false /\
  gadgetv1alpha1.OperationError
    (gadgetv1alpha1.Status (tcptop.trace (samples.fresh None))) = EmptyString /\
  gadgetv1alpha1.OperationError
    (gadgetv1alpha1.Status (tcptop.trace (tcptop.Stop (samples.fresh None))))
    = "Not started"%string /\
  gadgetv1alpha1.OperationError
    (gadgetv1alpha1.Status (tcptop.trace (tcptop.Stop (samples.fresh None))))
    <> EmptyString.
Proof. repeat split; try reflexivity. discriminate. Qed.

Lemma Stop_not_started_keeps_state_witness :
  tcptop.Stop (tcptop.Stop (samples.fresh None)) = tcptop.Stop (samples.fresh None) /\
  tcptop.started (tcptop.t (tcptop.Stop (samples.fresh None))) = false.
Proof.
  destruct (Stop_not_started_keeps_state (samples.fresh None)) as (_ & Hs & _ & _ & Hi).
  - reflexivity.
  - split; [exact Hi|exact Hs].
Defined.




Lemma eventCallback_publishes_once_witness :
  tcptop.published
    (tcptop.eventCallback samples.host "tcptop" "gadget/tcptop-1" (Some "{}"%string) [])
    = [("gadget/tcptop-1"%string, "{}"%string)] /\
  tcptop.published
    (tcptop.eventCallback samples.host "tcptop" "gadget/tcptop-1" None []) = [].
Proof.
  split.
  - destruct (eventCallback_publishes_once samples.host "tcptop" "gadget/tcptop-1"
                (Some "{}"%string) []) as [Hok _].
    destruct (Hok "{}"%string) as [_ Hp]; [reflexivity|exact Hp].
  - destruct (eventCallback_publishes_once samples.host "tcptop" "gadget/tcptop-1"
                None []) as [_ Hfail].
    destruct (Hfail "json: unsupported value"%string) as (_ & Hp & _);
      [reflexivity|exact Hp].
Defined.

(** ** uidgidresolver: capabilities and enrichment *)

Section uidgidresolver_facts.

Import uidgidresolver.

Context {Obj C : Type} (m : UidGidResolverInstance C).

Lemma comma_ok_true {T : Type} (sel : DynType Obj -> option T) (v : any Obj) :
  snd (comma_ok sel v) = true <->
  exists ty p, v = Some (ty, p) /\ is_Some (sel ty).
Proof.
  unfold comma_ok. split.
  - destruct v as [[ty p]|]; [|discriminate].
    destruct (sel ty) eqn:Hsel; [|discriminate].
    intros _. exists ty, p. rewrite Hsel. eauto.
  - intros (ty & p & -> & [x ->]). reflexivity.
Qed.

(** C8. [CanOperateOn] is true exactly when the event prototype of the
    gadget implements [UidResolverInterface] or implements
    [GidResolverInterface]; each of the two is probed on its own and either
    is enough. *)
Theorem CanOperateOn_iff (gadget : GadgetDesc Obj) :
  CanOperateOn gadget = true <->
  implements_uid (EventPrototype gadget) \/ implements_gid (EventPrototype gadget).
Proof.
  unfold CanOperateOn, implements_uid, implements_gid.
  rewrite orb_true_iff, !comma_ok_true. reflexivity.
Qed.

(** The assertion of line 107 panics on an event that lacks the uid
    capability, before anything is read or written. *)
Lemma enrich_without_uid_panics (ev : any Obj) (w : World Obj C) :
  ~ implements_uid ev -> enrich m ev w = Panicked w.
Proof.
  intros Hno. unfold enrich, bind, type_assert.
  destruct (comma_ok asUidResolver ev) as [x [|]] eqn:Hok; [|reflexivity].
  exfalso. apply Hno. apply (comma_ok_true asUidResolver ev). rewrite Hok. reflexivity.
Qed.

(** X20. On an event with the uid capability alone the call is not undone
    when it panics: the assertion of line 113 panics after the user name has
    been written, and the write stays in the heap. *)
Lemma enrich_uid_only_panics
  (ty : DynType Obj) (p : loc) (um : UidResolverInterface Obj) (o : Obj)
  (w : World Obj C) :
  asUidResolver ty = Some um ->
  asGidResolver ty = None ->
  heap w !! p = Some o ->
  enrich m (Some (ty, p)) w =
    Panicked {| cache := cache w;
                heap := <[p := SetUserName um
                                 (GetUsername (uidGidCache m) (cache w) (GetUid um o)) o]>
                          (heap w) |}.
Proof.
  intros Hu Hg Ho.
  unfold enrich, bind, type_assert, comma_ok, call_getter, read_cache, call_setter, ret,
    panic.
  rewrite Hu. simpl. rewrite Ho. simpl. rewrite Ho. simpl. rewrite Hg. reflexivity.
Qed.

(** On an event with both capabilities [enrich] returns: the object at the
    address of the event has its user name, then its group name, set to what
    the cache resolves the ids to; the cache is only read. *)
Lemma enrich_both
  (ty : DynType Obj) (p : loc) (um : UidResolverInterface Obj)
  (gm : GidResolverInterface Obj) (o : Obj) (w : World Obj C) :
  asUidResolver ty = Some um ->
  asGidResolver ty = Some gm ->
  heap w !! p = Some o ->
  let o1 := SetUserName um (GetUsername (uidGidCache m) (cache w) (GetUid um o)) o in
  let o2 := SetGroupName gm (GetGroupname (uidGidCache m) (cache w) (GetGid gm o1)) o1 in
  enrich m (Some (ty, p)) w =
    Returned tt {| cache := cache w; heap := <[p := o2]> (heap w) |}.
Proof.
  intros Hu Hg Ho o1 o2.
  unfold enrich, bind, type_assert, comma_ok, call_getter, read_cache, call_setter, ret,
    panic.
  rewrite Hu. simpl. rewrite Ho. simpl. rewrite Ho. simpl. rewrite Hg. simpl.
  rewrite lookup_insert_eq. simpl. rewrite lookup_insert_eq. simpl.
  rewrite insert_insert_eq. reflexivity.
Qed.

(** The enrichment is in place: the heap holds the same addresses before and
    after, and every other object is untouched. *)
Lemma enrich_both_in_place
  (ty : DynType Obj) (p : loc) (um : UidResolverInterface Obj)
  (gm : GidResolverInterface Obj) (o : Obj) (w : World Obj C) :
  asUidResolver ty = Some um ->
  asGidResolver ty = Some gm ->
  heap w !! p = Some o ->
  returns (enrich m (Some (ty, p)) w) = true /\
  dom (heap (state_after (enrich m (Some (ty, p)) w))) = dom (heap w) /\
  (forall q, q <> p ->
     heap (state_after (enrich m (Some (ty, p)) w)) !! q = heap w !! q) /\
  cache (state_after (enrich m (Some (ty, p)) w)) = cache w.
Proof.
  intros Hu Hg Ho. rewrite (enrich_both ty p um gm o w Hu Hg Ho). simpl.
  repeat split.
  - apply dom_insert_lookup_L. eauto.
  - intros q Hq. apply lookup_insert_ne. congruence.
Qed.

(** [enrich] returns only for events with both capabilities. *)
Lemma enrich_returns_both (ev : any Obj) (w : World Obj C) :
  returns (enrich m ev w) = true -> implements_uid ev /\ implements_gid ev.
Proof.
  unfold enrich, bind, type_assert, comma_ok, panic, ret, implements_uid, implements_gid.
  destruct ev as [[ty p]|]; simpl; [|discriminate].
  destruct (asUidResolver ty) as [um|] eqn:Hu; simpl; [|discriminate].
  destruct (asGidResolver ty) as [gm|] eqn:Hg.
  - intros _. split; exists ty, p; rewrite ?Hu, ?Hg; eauto.
  - unfold call_getter, read_cache, call_setter.
    destruct (heap w !! p); simpl; [|discriminate].
    destruct (heap w !! p); simpl; discriminate.
Qed.

(** [EnrichEvent] has no error to return, and leaves the cache alone. *)
Lemma EnrichEvent_error_nil (ev : any Obj) (w w' : World Obj C) (err : option string) :
  EnrichEvent m ev w = Returned err w' -> err = None.
Proof.
  unfold EnrichEvent, bind, ret.
  destruct (enrich m ev w); [intros [= <- _]; reflexivity|discriminate].
Qed.

Lemma EnrichEvent_both_returns_nil
  (ty : DynType Obj) (p : loc) (um : UidResolverInterface Obj)
  (gm : GidResolverInterface Obj) (o : Obj) (w : World Obj C) :
  asUidResolver ty = Some um ->
  asGidResolver ty = Some gm ->
  heap w !! p = Some o ->
  exists w', EnrichEvent m (Some (ty, p)) w = Returned None w' /\ cache w' = cache w.
Proof.
  intros Hu Hg Ho. unfold EnrichEvent, bind, ret.
  rewrite (enrich_both ty p um gm o w Hu Hg Ho). eexists. split; reflexivity.
Qed.

(** [PreGadgetRun] returns what [Start] of the cache returns. *)
Lemma PreGadgetRun_returns_Start (w : World Obj C) :
  PreGadgetRun m w =
    Returned (fst (Start (uidGidCache m) (cache w)))
             {| cache := snd (Start (uidGidCache m) (cache w)); heap := heap w |}.
Proof.
  unfold PreGadgetRun. destruct (Start (uidGidCache m) (cache w)). reflexivity.
Qed.

End uidgidresolver_facts.

(** ** uidgidresolver on concrete events *)

Example enrich_event_with_both :
  uidgidresolver.enrich samples.instance (samples.event_of samples.with_both) samples.world
  = uidgidresolver.Returned tt
      {| uidgidresolver.cache := 1%nat;
         uidgidresolver.heap :=
           {[ 1%positive := {| samples.uid := 0; samples.gid := 0;
                               samples.username := "root";
                               samples.groupname := "wheel" |} ]} |}.
Proof. vm_compute. reflexivity. Qed.

(** C1. On an event whose type has none of the four methods, and on the nil
    event, [enrich] does not complete: the type assertion of line 107 panics.
    The world is left as it was. *)
Theorem enrich_panics_without_capabilities :
  uidgidresolver.enrich samples.instance (samples.event_of samples.neither) samples.world
    = uidgidresolver.Panicked samples.world /\
  uidgidresolver.enrich samples.instance None samples.world
    = uidgidresolver.Panicked samples.world.
Proof. split; vm_compute; reflexivity. Qed.

(** C7. On an event with the uid capability alone, [EnrichEvent] does not
    return a nil error: it returns nothing, because [enrich] panics at the
    type assertion of line 113, after it has written the user name. *)
Theorem EnrichEvent_panics_on_uid_only_event :
  uidgidresolver.EnrichEvent samples.instance (samples.event_of samples.uid_only)
    samples.world
  = uidgidresolver.Panicked
      {| uidgidresolver.cache := 1%nat;
         uidgidresolver.heap :=
           {[ 1%positive := {| samples.uid := 0; samples.gid := 0;
                               samples.username := "root";
                               samples.groupname := EmptyString |} ]} |}.
Proof. vm_compute. reflexivity. Qed.

(** C9. On an event with the gid capability alone, [enrich] neither reads
    the gid nor writes the group name: it panics at the type assertion of
    line 107, and the event is as it was. *)
Theorem enrich_panics_on_gid_only_event :
  uidgidresolver.implements_gid (samples.event_of samples.gid_only) /\
  uidgidresolver.enrich samples.instance (samples.event_of samples.gid_only) samples.world
    = uidgidresolver.Panicked samples.world /\
  samples.groupname <$> uidgidresolver.heap samples.world !! 1%positive
    = Some EmptyString.
Proof.
  split; [|split].
  - exists samples.gid_only, 1%positive. split; [reflexivity|]. simpl. eauto.
  - vm_compute. reflexivity.
  - vm_compute. reflexivity.
Qed.

(** ** tcptop: the paths of [Start] *)

Section tcptop_paths.

Import gadgetv1alpha1 tcptop.

Context {E : Type} (I : Imports E).

(** [Start] on a trace that is not started, by the outcome of its three
    steps. *)
Lemma Start_not_started (w : World) :
  started (t w) = false ->
  Start I w =
    match parameters I (Parameters (Spec (trace w))) with
    | Err msg =>
        {| t := t w; trace := set_OperationError msg (trace w); effects := effects w |}
    | Ok s =>
        match TracerMountNsMap I (traceName_of I (trace w)) with
        | Err err =>
            {| t := t w;
               trace := set_OperationError
                          ("failed to find tracer's mount ns map: " +:+ err) (trace w);
               effects := effects w ++ [Call_TracerMountNsMap (traceName_of I (trace w))] |}
        | Ok m =>
            match NewTracer I (config_of s m) with
            | Err err =>
                {| t := t w;
                   trace := set_OperationError ("failed to create tracer: " +:+ err) (trace w);
                   effects := effects w ++
                              [Call_TracerMountNsMap (traceName_of I (trace w));
                               Call_NewTracer (config_of s m)] |}
            | Ok tr =>
                {| t := {| started := true; tracer := Some tr |};
                   trace := set_State TraceStateStarted (trace w);
                   effects := effects w ++
                              [Call_TracerMountNsMap (traceName_of I (trace w));
                               Call_NewTracer (config_of s m)] |}
            end
        end
    end.
Proof.
  intros Hstopped. unfold Start, traceName_of, config_of. rewrite Hstopped.
  destruct (parameters I (Parameters (Spec (trace w)))) as [s|msg]; [|reflexivity].
  destruct (TracerMountNsMap I _) as [m|err]; [|reflexivity].
  destruct (NewTracer I _) as [tr|err]; rewrite <- app_assoc; reflexivity.
Qed.


(** X2. [Start] writes the status and nothing else of the trace object. When
    the receiver is started after the call, the state is Started and the
    error of an earlier operation is still there; when it is not, the
    receiver and the state are as before the call. *)
Theorem Start_state_or_error (w : World) :
  Spec (trace (Start I w)) = Spec (trace w) /\
  Meta (trace (Start I w)) = Meta (trace w) /\
  (started (t (Start I w)) = true ->
     State (Status (trace (Start I w))) = TraceStateStarted /\
     OperationError (Status (trace (Start I w))) = OperationError (Status (trace w))) /\
  (started (t (Start I w)) = false ->
     t (Start I w) = t w /\
     State (Status (trace (Start I w))) = State (Status (trace w))).
Proof.
  destruct (started (t w)) eqn:Hs.
  - unfold Start. rewrite Hs. simpl. rewrite Hs. repeat split; congruence.
  - rewrite (Start_not_started w Hs).
    destruct (parameters I _) as [s|msg]; [|simpl; repeat split; congruence].
    destruct (TracerMountNsMap I _) as [m|err]; [|simpl; repeat split; congruence].
    destruct (NewTracer I _) as [tr|err]; simpl; repeat split; congruence.
Qed.

(** X3. When the mount namespace map of the trace is not found, [Start]
    reports it with the error of the helper and stops there: [NewTracer] is
    not called and the receiver is unchanged. *)
Theorem Start_mount_map_failure (w : World) (s : Settings) (err : string) :
  started (t w) = false ->
  parameters I (Parameters (Spec (trace w))) = Ok s ->
  TracerMountNsMap I (traceName_of I (trace w)) = Err err ->
  OperationError (Status (trace (Start I w))) =
    ("failed to find tracer's mount ns map: " +:+ err)%string /\
  State (Status (trace (Start I w))) = State (Status (trace w)) /\
  t (Start I w) = t w /\
  effects (Start I w) = effects w ++ [Call_TracerMountNsMap (traceName_of I (trace w))] /\
  tracers_created (effects (Start I w)) = tracers_created (effects w).
Proof.
  intros Hstopped Hs Hm. rewrite (Start_not_started w Hstopped), Hs, Hm. simpl.
  repeat split. unfold tracers_created. rewrite omap_app. simpl. apply app_nil_r.
Qed.

(** X4. When [NewTracer] fails, [Start] reports it with the error of the
    tracer: the receiver keeps [started] false and its tracer field, and the
    state of the trace is not set. *)
Theorem Start_tracer_failure (w : World) (s : Settings) (m : MountNsMap) (err : string) :
  started (t w) = false ->
  parameters I (Parameters (Spec (trace w))) = Ok s ->
  TracerMountNsMap I (traceName_of I (trace w)) = Ok m ->
  NewTracer I (config_of s m) = Err err ->
  OperationError (Status (trace (Start I w))) = ("failed to create tracer: " +:+ err)%string /\
  State (Status (trace (Start I w))) = State (Status (trace w)) /\
  t (Start I w) = t w /\
  tracers_created (effects (Start I w)) = tracers_created (effects w) ++ [config_of s m] /\
  made I (effects (Start I w)) = made I (effects w).
Proof.
  intros Hstopped Hs Hm Hnew. rewrite (Start_not_started w Hstopped), Hs, Hm, Hnew. simpl.
  repeat split.
  - unfold tracers_created. rewrite omap_app. reflexivity.
  - unfold made, tracers_created. rewrite !omap_app. simpl. rewrite Hnew. apply app_nil_r.
Qed.

(** X5. Whatever the world, [Start] only appends to the log, and what it
    appends is no call to [Stop] of a tracer, no published event and no
    warning. It creates at most one tracer, and only from accepted
    parameters and the mount namespace map that the helper returned. *)
Theorem Start_calls (w : World) :
  exists calls,
    effects (Start I w) = effects w ++ calls /\
    stops calls = [] /\
    published calls = [] /\
    warnings calls = [] /\
    (length (tracers_created calls) <= 1)%nat /\
    (forall config, In config (tracers_created calls) ->
       started (t w) = false /\
       exists s m,
         parameters I (Parameters (Spec (trace w))) = Ok s /\
         TracerMountNsMap I (traceName_of I (trace w)) = Ok m /\
         config = config_of s m).
Proof.
  destruct (started (t w)) eqn:Hs.
  - exists []. unfold Start. rewrite Hs. simpl. rewrite app_nil_r.
    do 5 (split; [auto|]). intros config [].
  - rewrite (Start_not_started w Hs).
    destruct (parameters I _) as [s|msg].
    + destruct (TracerMountNsMap I _) as [m|err].
      * exists [Call_TracerMountNsMap (traceName_of I (trace w));
                Call_NewTracer (config_of s m)].
        split; [destruct (NewTracer I (config_of s m)); reflexivity|].
        simpl. do 4 (split; [auto|]).
        intros config [<-|[]]. split; [reflexivity|]. exists s, m. auto.
      * exists [Call_TracerMountNsMap (traceName_of I (trace w))]. simpl.
        do 5 (split; [auto|]). intros config [].
    + exists []. simpl. rewrite app_nil_r. do 5 (split; [auto|]). intros config [].
Qed.

End tcptop_paths.

(** ** tcptop: sequences of operations *)

Section tcptop_sequences.

Import gadgetv1alpha1 tcptop.

Context {E : Type} (I : Imports E).

Lemma set_State_same (s : TraceState) (tr : gadgetv1alpha1.Trace) :
  State (Status tr) = s -> set_State s tr = tr.
Proof.
  intros <-. destruct tr as [meta spec [state err]]. reflexivity.
Qed.


Lemma made_app (l1 l2 : list Effect) : made I (l1 ++ l2) = made I l1 ++ made I l2.
Proof. unfold made, tracers_created. rewrite !omap_app. reflexivity. Qed.

(** X6. A [Stop] that follows a successful [Start] stops the tracer that
    [NewTracer] returned to that [Start], once, and leaves the receiver as it
    was before the two calls were made: not started, without a tracer. The
    state of the trace is Stopped. *)
Theorem Start_then_Stop (w : World) :
  started (t w) = false ->
  started (t (Start I w)) = true ->
  exists tr,
    tracer (t (Start I w)) = Some tr /\
    made I (effects (Start I w)) = made I (effects w) ++ [tr] /\
    effects (Stop (Start I w)) = effects (Start I w) ++ [Call_Tracer_Stop (Some tr)] /\
    t (Stop (Start I w)) = {| started := false; tracer := None |} /\
    State (Status (trace (Stop (Start I w)))) = TraceStateStopped.
Proof.
  intros Hstopped. rewrite (Start_not_started I w Hstopped).
  destruct (parameters I _) as [s|msg]; [|simpl; congruence].
  destruct (TracerMountNsMap I _) as [m|err]; [|simpl; congruence].
  destruct (NewTracer I (config_of s m)) as [tr|err] eqn:Hnew; [|simpl; congruence].
  intros _. exists tr. unfold Stop. simpl. repeat split.
  rewrite made_app. unfold made at 2. simpl. rewrite Hnew. reflexivity.
Qed.

Lemma Start_started_state (w : World) :
  started (t (Start I w)) = true ->
  State (Status (trace (Start I w))) = TraceStateStarted.
Proof.
  destruct (started (t w)) eqn:Hs.
  - unfold Start. rewrite Hs. reflexivity.
  - rewrite (Start_not_started I w Hs).
    destruct (parameters I _) as [s|msg]; [|simpl; congruence].
    destruct (TracerMountNsMap I _) as [m|err]; [|simpl; congruence].
    destruct (NewTracer I _) as [tr|err]; simpl; congruence.
Qed.

(** X7. A second [Start] after a successful one changes nothing: the world
    after the two calls is the world after the first, so the tracer is
    created once. *)
Theorem Start_twice (w : World) :
  started (t (Start I w)) = true ->
  Start I (Start I w) = Start I w /\
  tracers_created (effects (Start I (Start I w))) = tracers_created (effects (Start I w)).
Proof.
  intros Hstarted.
  assert (Hsame : Start I (Start I w) = Start I w).
  { pose proof (Start_started_state w Hstarted) as Hstate.
    unfold Start at 1. rewrite Hstarted.
    rewrite (set_State_same _ _ Hstate). destruct (Start I w). reflexivity. }
  split; [exact Hsame|]. rewrite Hsame. reflexivity.
Qed.







End tcptop_sequences.

(** ** tcptop: what the parameter block accepts *)

Section tcptop_settings.

Import gadgetv1alpha1 tcptop.

Context {E : Type} (I : Imports E).

Lemma ParseInt10_in_range (bits : Z) (val : string) (n : Z) :
  Go.ParseInt10 bits val = Some n -> Go.in_range bits n = true.
Proof.
  unfold Go.ParseInt10. destruct (Go.parse_signed val) as [k|]; [|discriminate].
  destruct (Go.in_range bits k) eqn:Hr; [|discriminate].
  intros [= <-]. exact Hr.
Qed.

(** A conversion to a width the value fits in leaves the value as it is. *)
Lemma wrap_in_range (bits : Z) (n : Z) :
  0 < bits -> Go.in_range bits n = true -> Go.wrap bits n = n.
Proof.
  intros Hbits Hr. unfold Go.in_range in Hr. apply andb_true_iff in Hr as [Hlo Hhi].
  apply Z.leb_le in Hlo. apply Z.ltb_lt in Hhi. unfold Go.wrap.
  assert (Hpow : 2 ^ bits = 2 * 2 ^ (bits - 1)).
  { replace bits with (Z.succ (bits - 1)) at 1 by lia. apply Z.pow_succ_r. lia. }
  assert (Hpos : 0 < 2 ^ (bits - 1)) by (apply Z.pow_pos_nonneg; lia).
  destruct (Z_lt_le_dec n 0) as [Hneg|Hnonneg].
  - assert (Hmod : n mod 2 ^ bits = n + 2 ^ bits).
    { symmetry. apply Z.mod_unique with (q := -1); lia. }
    rewrite Hmod. destruct (n + 2 ^ bits <? 2 ^ (bits - 1)) eqn:Hc.
    + apply Z.ltb_lt in Hc. lia.
    + lia.
  - rewrite Z.mod_small by lia.
    destruct (n <? 2 ^ (bits - 1)) eqn:Hc; [reflexivity|].
    apply Z.ltb_ge in Hc. lia.
Qed.

(** X9. Parameters that are absent keep their defaults: a parameter map
    with none of the five names is accepted, with the same settings as a nil
    map, whatever else it holds. *)
Theorem parameters_absent_defaults (params : gmap string string) :
  params !! MaxRowsParam I = None ->
  params !! IntervalParam I = None ->
  params !! SortByParam I = None ->
  params !! PidParam I = None ->
  params !! FamilyParam I = None ->
  parameters I (Some params) = Ok (defaults I) /\
  parameters I (Some params) = parameters I None.
Proof.
  intros H1 H2 H3 H4 H5.
  assert (Hsome : parameters I (Some params) = Ok (defaults I)).
  { unfold parameters, bind_result, param_MaxRows, param_Interval, param_SortBy,
      param_Pid, param_Family.
    rewrite H1, H2, H3, H4, H5. reflexivity. }
  split; [exact Hsome|]. rewrite Hsome. reflexivity.
Qed.

Lemma param_MaxRows_Ok (params : gmap string string) (n : Z) :
  param_MaxRows I params = Ok n ->
  match params !! MaxRowsParam I with
  | Some val => Go.Atoi val = Some n
  | None => n = MaxRowsDefault I
  end.
Proof.
  unfold param_MaxRows. destruct (params !! MaxRowsParam I) as [val|].
  - destruct (Go.Atoi val); [congruence|discriminate].
  - congruence.
Qed.

Lemma param_Interval_Ok (params : gmap string string) (n : Z) :
  param_Interval I params = Ok n ->
  match params !! IntervalParam I with
  | Some val => Go.Atoi val = Some n
  | None => n = IntervalDefault I
  end.
Proof.
  unfold param_Interval. destruct (params !! IntervalParam I) as [val|].
  - destruct (Go.Atoi val); [congruence|discriminate].
  - congruence.
Qed.

Lemma param_SortBy_Ok (params : gmap string string) (cols : list string) :
  param_SortBy I params = Ok cols ->
  match params !! SortByParam I with
  | Some val => cols = Go.Split "," val /\ forall tok, In tok cols -> sortable I tok = true
  | None => cols = SortByDefault I
  end.
Proof.
  unfold param_SortBy. destruct (params !! SortByParam I) as [val|]; [|congruence].
  destruct (snd (FilterSortableColumns I (Go.Split "," val))) as [|c cs] eqn:Hcols;
    [|discriminate].
  intros [= <-]. split; [reflexivity|].
  intros tok Hin. destruct (sortable I tok) eqn:Htok; [reflexivity|].
  assert (Hbad : In tok (snd (FilterSortableColumns I (Go.Split "," val))))
    by (apply invalid_columns_spec; auto).
  rewrite Hcols in Hbad. destruct Hbad.
Qed.

Lemma param_Pid_Ok (params : gmap string string) (n : Z) :
  param_Pid I params = Ok n ->
  match params !! PidParam I with
  | Some val => Go.ParseInt10 32 val = Some n
  | None => n = 0
  end.
Proof.
  unfold param_Pid. destruct (params !! PidParam I) as [val|]; [|congruence].
  destruct (Go.ParseInt10 32 val) as [pid|] eqn:Hparse; [|discriminate].
  intros [= <-]. unfold Go.int32_of.
  rewrite wrap_in_range; [reflexivity|lia|].
  eapply ParseInt10_in_range; eauto.
Qed.

Lemma param_Family_Ok (params : gmap string string) (n : Z) :
  param_Family I params = Ok n ->
  match params !! FamilyParam I with
  | Some val => ParseFilterByFamily I val = Ok n
  | None => n = -1
  end.
Proof.
  unfold param_Family. destruct (params !! FamilyParam I) as [val|]; [|congruence].
  destruct (ParseFilterByFamily I val); [congruence|discriminate].
Qed.

(** X10. The settings of an accepted parameter map: each is the value of
    its parameter as parsed, or the default when the parameter is absent.
    The sort specification is the list of the tokens between the commas, all
    of them sortable columns; the pid is the number written, not wrapped, and
    fits an [int32]. *)
Theorem parameters_accepted (params : gmap string string) (s : Settings) :
  parameters I (Some params) = Ok s ->
  match params !! MaxRowsParam I with
  | Some val => Go.Atoi val = Some (maxRows s)
  | None => maxRows s = MaxRowsDefault I
  end /\
  match params !! IntervalParam I with
  | Some val => Go.Atoi val = Some (intervalSeconds s)
  | None => intervalSeconds s = IntervalDefault I
  end /\
  match params !! SortByParam I with
  | Some val => sortBy s = Go.Split "," val /\
                forall tok, In tok (sortBy s) -> sortable I tok = true
  | None => sortBy s = SortByDefault I
  end /\
  match params !! PidParam I with
  | Some val => Go.ParseInt10 32 val = Some (targetPid s)
  | None => targetPid s = 0
  end /\
  match params !! FamilyParam I with
  | Some val => ParseFilterByFamily I val = Ok (targetFamily s)
  | None => targetFamily s = -1
  end /\
  - 2 ^ 31 <= targetPid s < 2 ^ 31.
Proof.
  unfold parameters, bind_result.
  destruct (param_MaxRows I params) as [n1|] eqn:H1; [|discriminate].
  destruct (param_Interval I params) as [n2|] eqn:H2; [|discriminate].
  destruct (param_SortBy I params) as [n3|] eqn:H3; [|discriminate].
  destruct (param_Pid I params) as [n4|] eqn:H4; [|discriminate].
  destruct (param_Family I params) as [n5|] eqn:H5; [|discriminate].
  intros [= <-]. simpl.
  split; [exact (param_MaxRows_Ok params n1 H1)|].
  split; [exact (param_Interval_Ok params n2 H2)|].
  split; [exact (param_SortBy_Ok params n3 H3)|].
  split; [exact (param_Pid_Ok params n4 H4)|].
  split; [exact (param_Family_Ok params n5 H5)|].
  pose proof (param_Pid_Ok params n4 H4) as Hpid.
  destruct (params !! PidParam I) as [val|].
  - apply ParseInt10_in_range in Hpid. unfold Go.in_range in Hpid.
    apply andb_true_iff in Hpid as [Hlo Hhi].
    apply Z.leb_le in Hlo. apply Z.ltb_lt in Hhi. simpl in *. lia.
  - subst n4. lia.
Qed.

Ltac first_error :=
  split;
  [ let H := fresh in
    intros H; try discriminate H; injection H as ->;
    repeat first [ reflexivity | left; reflexivity | right; split; [reflexivity|] ]
  | let H := fresh in
    intros H; decompose [and or] H; first [ assumption | congruence ] ].

(** X11. The five checks run in the order max-rows, interval, sort-by, pid,
    family, and the block fails with the message of the first check that
    fails: a parameter is only looked at when all the checks before it have
    passed. *)
Theorem parameters_first_error (params : gmap string string) (msg : string) :
  parameters I (Some params) = Err msg <->
  param_MaxRows I params = Err msg \/
  (is_Err (param_MaxRows I params) = false /\
   (param_Interval I params = Err msg \/
    (is_Err (param_Interval I params) = false /\
     (param_SortBy I params = Err msg \/
      (is_Err (param_SortBy I params) = false /\
       (param_Pid I params = Err msg \/
        (is_Err (param_Pid I params) = false /\
         param_Family I params = Err msg))))))).
Proof.
  unfold parameters, bind_result.
  destruct (param_MaxRows I params) as [n1|m1]; simpl; [|first_error].
  destruct (param_Interval I params) as [n2|m2]; simpl; [|first_error].
  destruct (param_SortBy I params) as [n3|m3]; simpl; [|first_error].
  destruct (param_Pid I params) as [n4|m4]; simpl; [|first_error].
  destruct (param_Family I params) as [n5|m5]; simpl; first_error.
Qed.

(** X12. For an interval of at most 9223372036 seconds in absolute value,
    the [Interval] of the configuration is that many seconds in nanoseconds;
    the product does not wrap around. *)
Theorem Interval_exact (s : Settings) (m : MountNsMap) :
  - 9223372036 <= intervalSeconds s <= 9223372036 ->
  Interval (config_of s m) = 1000000000 * intervalSeconds s.
Proof.
  intros Hrange. unfold config_of, Go.seconds, Go.time_Second. simpl.
  apply wrap_in_range; [lia|].
  unfold Go.in_range. apply andb_true_iff. split.
  - apply Z.leb_le. change (2 ^ (64 - 1)) with 9223372036854775808. lia.
  - apply Z.ltb_lt. change (2 ^ (64 - 1)) with 9223372036854775808. lia.
Qed.

End tcptop_settings.

(** ** tcptop: the message for refused columns, and the ticks *)

Section tcptop_messages.

Import gadgetv1alpha1 tcptop.

Context {E : Type} (I : Imports E).

Lemma Split_not_nil (sep : ascii) (s : string) : Go.Split sep s <> [].
Proof.
  destruct s as [|c r]; simpl; [discriminate|].
  destruct (Ascii.eqb c sep); [discriminate|].
  destruct (Go.Split sep r); discriminate.
Qed.

(** Joining what was split gives the string back. *)
Lemma Join_Split (sep : ascii) (s : string) :
  Go.Join (Go.Split sep s) (String sep EmptyString) = s.
Proof.
  induction s as [|c r IH]; simpl; [reflexivity|].
  pose proof (Split_not_nil sep r) as Hne.
  destruct (Ascii.eqb c sep) eqn:Hc.
  - apply Ascii.eqb_eq in Hc. subst c.
    destruct (Go.Split sep r) as [|h rest]; [congruence|].
    change (Go.Join (EmptyString :: h :: rest) (String sep EmptyString))
      with (String sep (Go.Join (h :: rest) (String sep EmptyString))).
    rewrite IH. reflexivity.
  - destruct (Go.Split sep r) as [|h rest]; [congruence|].
    destruct rest as [|h' rest]; rewrite <- IH; reflexivity.
Qed.

Lemma filter_all {A : Type} (f : A -> bool) (l : list A) :
  (forall x, In x l -> f x = true) -> List.filter f l = l.
Proof.
  induction l as [|x l IH]; intros Hall; simpl; [reflexivity|].
  rewrite (Hall x (or_introl eq_refl)). rewrite IH; [reflexivity|].
  intros y Hy. apply Hall. now right.
Qed.

(** X13. When no token of the sort-by parameter is a sortable column, the
    message of the check quotes the parameter as it was written: the refused
    columns joined by commas are the value that was split at the commas. *)
Theorem param_SortBy_all_refused (params : gmap string string) (val : string) :
  params !! SortByParam I = Some val ->
  (forall tok, In tok (Go.Split "," val) -> sortable I tok = false) ->
  param_SortBy I params = Err (are_not_valid_for I val (SortByParam I)).
Proof.
  intros Hval Hall. unfold param_SortBy. rewrite Hval.
  assert (Hcols : snd (FilterSortableColumns I (Go.Split "," val)) = Go.Split "," val).
  { unfold FilterSortableColumns. simpl. apply filter_all.
    intros tok Hin. rewrite (Hall tok Hin). reflexivity. }
  cbv zeta. rewrite Hcols, (Join_Split "," val).
  pose proof (Split_not_nil "," val) as Hne.
  destruct (Go.Split "," val) as [|c cs]; [congruence|reflexivity].
Qed.

Lemma warnings_app (l1 l2 : list Effect) : warnings (l1 ++ l2) = warnings l1 ++ warnings l2.
Proof. unfold warnings. apply omap_app. Qed.

Lemma tracers_created_app (l1 l2 : list Effect) :
  tracers_created (l1 ++ l2) = tracers_created l1 ++ tracers_created l2.
Proof. unfold tracers_created. apply omap_app. Qed.

(** X15. Over the ticks of a run the callback adds one entry to the log for
    each event, a published event or a warning and never both, and it
    creates and stops no tracer. *)
Theorem ticks_one_entry_each (gadget traceName : string) (evs : list E) (l : list Effect) :
  length (ticks I gadget traceName evs l) = (length l + length evs)%nat /\
  (length (published (ticks I gadget traceName evs l)) +
   length (warnings (ticks I gadget traceName evs l)))%nat =
    (length (published l) + length (warnings l) + length evs)%nat /\
  tracers_created (ticks I gadget traceName evs l) = tracers_created l /\
  stops (ticks I gadget traceName evs l) = stops l.
Proof.
  unfold ticks. revert l. induction evs as [|ev evs IH]; intros l; simpl.
  - repeat split; lia.
  - destruct (IH (eventCallback I gadget traceName ev l)) as (H1 & H2 & H3 & H4).
    rewrite H1, H2, H3, H4. unfold eventCallback.
    destruct (Marshal I ev) as [r|err];
      rewrite length_app, published_app, warnings_app, tracers_created_app, !length_app;
      unfold stops; rewrite omap_app; simpl; rewrite !app_nil_r;
      repeat split; lia.
Qed.

End tcptop_messages.

(** ** uidgidresolver: which events are enriched, and what is left alone *)

Section uidgidresolver_more.

Import uidgidresolver.

Context {Obj C : Type} (m : UidGidResolverInstance C).

(** X16. [enrich] returns exactly for the events that implement both
    interfaces: on an event with one of them, or none, and on the nil event,
    it panics. *)
Theorem enrich_returns_iff (ev : any Obj) (w : World Obj C) :
  (forall ty p, ev = Some (ty, p) -> is_Some (heap w !! p)) ->
  (returns (enrich m ev w) = true <-> implements_uid ev /\ implements_gid ev).
Proof.
  intros Hlive. split; [apply enrich_returns_both|].
  intros [(ty & p & -> & [um Hu]) (ty' & p' & Heq & [gm Hg])].
  injection Heq as <- <-.
  destruct (Hlive ty p eq_refl) as [o Ho].
  rewrite (enrich_both m ty p um gm o w Hu Hg Ho). reflexivity.
Qed.

(** X17. Whatever the event, and whether the call returns or panics,
    [enrich] does not change the cache, allocates and frees no object, and
    writes to no object but the event it was given. *)
Theorem enrich_frame (ev : any Obj) (w : World Obj C) :
  cache (state_after (enrich m ev w)) = cache w /\
  dom (heap (state_after (enrich m ev w))) = dom (heap w) /\
  (forall q, (forall ty, ev <> Some (ty, q)) ->
     heap (state_after (enrich m ev w)) !! q = heap w !! q).
Proof.
  unfold enrich, bind, type_assert, comma_ok, panic, ret, call_getter, read_cache,
    call_setter.
  destruct ev as [[ty p]|]; simpl; [|auto].
  destruct (asUidResolver ty) as [um|]; simpl; [|auto].
  destruct (heap w !! p) as [o|] eqn:Ho; simpl; [|auto].
  rewrite Ho. simpl.
  destruct (asGidResolver ty) as [gm|]; simpl.
  - rewrite lookup_insert_eq. simpl. rewrite lookup_insert_eq. simpl.
    rewrite insert_insert_eq. split; [reflexivity|]. split.
    + apply dom_insert_lookup_L. eauto.
    + intros q Hq. apply lookup_insert_ne. intros ->. eapply Hq. reflexivity.
  - split; [reflexivity|]. split.
    + apply dom_insert_lookup_L. eauto.
    + intros q Hq. apply lookup_insert_ne. intros ->. eapply Hq. reflexivity.
Qed.

(** X18. [CanOperateOn] accepts gadgets that [EnrichEvent] cannot serve: when
    the event prototype implements one of the two interfaces and not the
    other, the operator is selected, and [EnrichEvent] panics on the
    prototype. *)
Theorem CanOperateOn_one_interface (gadget : GadgetDesc Obj) (w : World Obj C) :
  implements_uid (EventPrototype gadget) \/ implements_gid (EventPrototype gadget) ->
  ~ (implements_uid (EventPrototype gadget) /\ implements_gid (EventPrototype gadget)) ->
  CanOperateOn gadget = true /\
  panics (EnrichEvent m (EventPrototype gadget) w) = true.
Proof.
  intros Hone Hboth. split.
  - unfold CanOperateOn. apply orb_true_iff.
    destruct Hone as [H|H]; [left|right]; apply comma_ok_true; exact H.
  - unfold panics, EnrichEvent, bind.
    destruct (enrich m (EventPrototype gadget) w) as [u w'|w'] eqn:Hrun; [|reflexivity].
    exfalso. apply Hboth. apply (enrich_returns_both m _ w). rewrite Hrun. reflexivity.
Qed.

(** X19. On an event with both interfaces [enrich] returns, and the object
    at the address of the event is the one the two setters leave: the user
    name the cache gives for the uid of the event, then the group name the
    cache gives for the gid read after the user name was set. The event is
    the same object at the same address. *)
Theorem enrich_resolves_names
  (ty : DynType Obj) (p : loc) (um : UidResolverInterface Obj)
  (gm : GidResolverInterface Obj) (o : Obj) (w : World Obj C) :
  asUidResolver ty = Some um ->
  asGidResolver ty = Some gm ->
  heap w !! p = Some o ->
  exists w',
    enrich m (Some (ty, p)) w = Returned tt w' /\
    heap w' !! p =
      Some (SetGroupName gm
              (GetGroupname (uidGidCache m) (cache w)
                 (GetGid gm (SetUserName um
                               (GetUsername (uidGidCache m) (cache w) (GetUid um o)) o)))
              (SetUserName um (GetUsername (uidGidCache m) (cache w) (GetUid um o)) o)) /\
    dom (heap w') = dom (heap w) /\
    cache w' = cache w.
Proof.
  intros Hu Hg Ho. eexists. split; [apply (enrich_both m ty p um gm o w Hu Hg Ho)|].
  simpl. split; [apply lookup_insert_eq|]. split; [|reflexivity].
  apply dom_insert_lookup_L. eauto.
Qed.

End uidgidresolver_more.

(** ** The further properties on the concrete hosts and events *)


Lemma Start_mount_map_failure_witness :
  gadgetv1alpha1.OperationError (gadgetv1alpha1.Status (tcptop.trace
    (tcptop.Start samples.host_without_map (samples.fresh None))))
  = "failed to find tracer's mount ns map: no such trace"%string.
Proof.
  apply (Start_mount_map_failure samples.host_without_map (samples.fresh None)
           (tcptop.defaults samples.host_without_map) "no such trace");
    reflexivity.
Defined.

Lemma Start_tracer_failure_witness :
  gadgetv1alpha1.OperationError (gadgetv1alpha1.Status (tcptop.trace
    (tcptop.Start samples.host_without_tracer (samples.fresh None))))
  = "failed to create tracer: cannot load program"%string.
Proof.
  apply (Start_tracer_failure samples.host_without_tracer (samples.fresh None)
           (tcptop.defaults samples.host_without_tracer) 1%positive "cannot load program");
    reflexivity.
Defined.

Lemma Start_then_Stop_witness :
  exists tr,
    tcptop.tracer (tcptop.t (tcptop.Start samples.host (samples.fresh None))) = Some tr /\
    tcptop.made samples.host
      (tcptop.effects (tcptop.Start samples.host (samples.fresh None))) = [tr] /\
    tcptop.effects (tcptop.Stop (tcptop.Start samples.host (samples.fresh None))) =
      tcptop.effects (tcptop.Start samples.host (samples.fresh None)) ++
      [tcptop.Call_Tracer_Stop (Some tr)] /\
    tcptop.t (tcptop.Stop (tcptop.Start samples.host (samples.fresh None))) =
      {| tcptop.started := false; tcptop.tracer := None |} /\
    gadgetv1alpha1.State (gadgetv1alpha1.Status (tcptop.trace
      (tcptop.Stop (tcptop.Start samples.host (samples.fresh None)))))
      = gadgetv1alpha1.TraceStateStopped.
Proof.
  apply (Start_then_Stop samples.host (samples.fresh None)); reflexivity.
Defined.

Lemma Start_twice_witness :
  tcptop.Start samples.host (tcptop.Start samples.host (samples.fresh (Some samples.all_set)))
  = tcptop.Start samples.host (samples.fresh (Some samples.all_set)).
Proof.
  apply (Start_twice samples.host (samples.fresh (Some samples.all_set))).
  vm_compute. reflexivity.
Defined.

Lemma parameters_absent_defaults_witness :
  tcptop.parameters samples.host (Some {[ "verbose"%string := "1"%string ]})
  = Ok (tcptop.defaults samples.host).
Proof.
  apply (parameters_absent_defaults samples.host {[ "verbose"%string := "1"%string ]});
    vm_compute; reflexivity.
Defined.

Lemma parameters_accepted_witness :
  Go.ParseInt10 32 "42" = Some 42 /\ - 2 ^ 31 <= 42 < 2 ^ 31.
Proof.
  destruct (parameters_accepted samples.host samples.all_set
              {| tcptop.maxRows := 5;
                 tcptop.intervalSeconds := 3;
                 tcptop.sortBy := ["-received"; "pid"]%string;
                 tcptop.targetPid := 42;
                 tcptop.targetFamily := 10 |})
    as (_ & _ & _ & Hpid & _ & Hrange).
  - vm_compute. reflexivity.
  - split; [exact Hpid|exact Hrange].
Defined.

Lemma Interval_exact_witness :
  tcptop.Interval (tcptop.config_of (tcptop.defaults samples.host) 1%positive) = 1000000000.
Proof.
  apply (Interval_exact (tcptop.defaults samples.host) 1%positive). simpl. lia.
Defined.

Lemma param_SortBy_all_refused_witness :
  tcptop.param_SortBy samples.host samples.all_bogus
  = Err (tcptop.are_not_valid_for samples.host "cpu,,mem" "sort-by").
Proof.
  apply (param_SortBy_all_refused samples.host samples.all_bogus "cpu,,mem").
  - vm_compute. reflexivity.
  - intros tok [<-|[<-|[<-|[]]]]; reflexivity.
Defined.


Lemma enrich_returns_iff_witness :
  uidgidresolver.returns
    (uidgidresolver.enrich samples.instance (samples.event_of samples.with_both)
       samples.world) = true <->
  uidgidresolver.implements_uid (samples.event_of samples.with_both) /\
  uidgidresolver.implements_gid (samples.event_of samples.with_both).
Proof.
  apply (enrich_returns_iff samples.instance (samples.event_of samples.with_both)
           samples.world).
  intros ty p [= <- <-]. exists samples.raw. reflexivity.
Defined.

Lemma CanOperateOn_one_interface_witness :
  uidgidresolver.CanOperateOn
    {| uidgidresolver.EventPrototype := samples.event_of samples.uid_only |} = true /\
  uidgidresolver.panics
    (uidgidresolver.EnrichEvent samples.instance (samples.event_of samples.uid_only)
       samples.world) = true.
Proof.
  apply (CanOperateOn_one_interface samples.instance
           {| uidgidresolver.EventPrototype := samples.event_of samples.uid_only |}
           samples.world).
  - left. exists samples.uid_only, 1%positive. split; [reflexivity|]. simpl. eauto.
  - intros [_ (ty & p & Heq & [x Hx])]. injection Heq as <- <-. discriminate.
Defined.

Lemma enrich_resolves_names_witness :
  exists w',
    uidgidresolver.enrich samples.instance (samples.event_of samples.with_both)
      samples.world2 = uidgidresolver.Returned tt w' /\
    uidgidresolver.heap w' !! 1%positive =
      Some {| samples.uid := 0; samples.gid := 0;
              samples.username := "root"; samples.groupname := "wheel" |} /\
    dom (uidgidresolver.heap w') = dom (uidgidresolver.heap samples.world2) /\
    uidgidresolver.cache w' = 1%nat.
Proof.
  apply (enrich_resolves_names samples.instance samples.with_both 1%positive
           samples.uid_methods samples.gid_methods samples.raw samples.world2);
    reflexivity.
Defined.

Lemma enrich_uid_only_panics_witness :
  uidgidresolver.enrich samples.instance (samples.event_of samples.uid_only) samples.world2
  = uidgidresolver.Panicked
      {| uidgidresolver.cache := 1%nat;
         uidgidresolver.heap :=
           <[ 1%positive := {| samples.uid := 0; samples.gid := 0;
                               samples.username := "root";
                               samples.groupname := EmptyString |} ]>
             (uidgidresolver.heap samples.world2) |}.
Proof.
  apply (enrich_uid_only_panics samples.instance samples.uid_only 1%positive
           samples.uid_methods samples.raw samples.world2);
    reflexivity.
Defined.
